(** * QR label sheets: the layout engine of [main.py]

    A shallow embedding of [generate_qr_code] and
    [generate_child_health_report], and the properties of the sheet they
    lay out.

    Lengths are PDF points.  The Python code computes them in floating
    point; here they are exact rationals ([Qc]), so every statement below
    is about the arithmetic the code writes down, not about rounding.

    The collaborators of the engine are modelled by what the engine asks of
    them: the CSV tokenizer by the sequence of rows it yields, the PDF
    canvas by the drawing calls it receives, the working directory by a
    finite map from paths to stored images; a run leaves an ordered trace
    of its calls on both. *)

From Stdlib Require Import QArith Qcanon Lqa.
From stdpp Require Import base numbers option list strings gmap.

Local Open Scope string_scope.
Local Open Scope list_scope.
Local Open Scope Qc_scope.

(** ** Values *)

(** A CSV cell as [csv.DictReader] hands it out: a string, or [None] for a
    column the row is too short to fill ([restval]). *)
Abbreviation cell := (option string).

(** [str(v)] as an f-string placeholder renders it. *)
Definition py_str (v : cell) : string :=
  match v with
  | Some s => s
  | None => "None"
  end.

(** ** QR symbols *)

Inductive error_correction : Set :=
  | ERROR_CORRECT_L
  | ERROR_CORRECT_M
  | ERROR_CORRECT_Q
  | ERROR_CORRECT_H.

Record qr_image : Set := QRImage {
  qr_version : positive;
  qr_fit : bool;
  qr_error_correction : error_correction;
  qr_box_size : positive;
  qr_border : N;
  qr_data : cell;
  qr_fill : string;
  qr_back_color : string
}.

Definition generate_qr_code (data : cell) : qr_image :=
  {| qr_version := 1%positive;
     qr_fit := true;
     qr_error_correction := ERROR_CORRECT_L;
     qr_box_size := 2%positive;
     qr_border := 1%N;
     qr_data := data;
     qr_fill := "black";
     qr_back_color := "white" |}.

(** ** Layout parameters *)

Record layout_params : Set := LayoutParams {
  margin : Qc;
  text_margin : Qc;
  qr_img_size : Qc;
  line_spacing : Qc;
  horizontal_spacing : Qc;
  vertical_spacing : Qc
}.

Definition set_layout_parameters
    (margin text_margin qr_img_size line_spacing
     horizontal_spacing vertical_spacing : Qc) : layout_params :=
  LayoutParams margin text_margin qr_img_size line_spacing
               horizontal_spacing vertical_spacing.

(** [reportlab.lib.pagesizes.letter], as (width, height). *)
Definition letter : Qc * Qc := (Qc_of_Z 612, Qc_of_Z 792).

(** The literal [2.2]. *)
Definition lit_2_2 : Qc := Q2Qc (22 # 10).

(** ** The canvas and the working directory *)

Inductive canvas_op : Set :=
  | ShowPage
  | DrawImage (path : string) (img : qr_image) (x y width height : Qc)
  | SetFont (name : string) (size : Z)
  | SetFillColor (color : string)
  | DrawString (x y : Qc) (text : string)
  | Save.

(** What a run does to the outside, in the order it does it: calls on the
    canvas, files written and files removed. *)
Inductive event : Set :=
  | Canvas (o : canvas_op)
  | ImgSave (path : string) (img : qr_image)
  | OsRemove (path : string).

Record world : Set := World {
  trace : list event;
  files : gmap string qr_image
}.

Definition canvas_call (e : event) : option canvas_op :=
  match e with
  | Canvas o => Some o
  | _ => None
  end.

(** The calls the canvas has received, which is what it holds. *)
Definition canvas (w : world) : list canvas_op := omap canvas_call (trace w).

Inductive exn : Set :=
  | ValueError (msg : string)
  | TypeError
  | KeyError (key : string)
  | FileNotFoundError (path : string).

Inductive outcome (A : Type) : Type :=
  | Returned (a : A)
  | Raised (e : exn).
Arguments Returned {A} a.
Arguments Raised {A} e.

(** A computation runs in a world and leaves a world behind, whether it
    returns or raises. *)
Definition M (A : Type) : Type := world → outcome A * world.

Global Instance M_ret : MRet M := λ A a w, (Returned a, w).
Global Instance M_bind : MBind M := λ A B k m w,
  match m w with
  | (Returned a, w') => k a w'
  | (Raised e, w') => (Raised e, w')
  end.
Definition raise {A} (e : exn) : M A := λ w, (Raised e, w).

Definition log (e : event) : M unit :=
  λ w, (Returned tt, World (trace w ++ [e]) (files w)).

Definition showPage : M unit := log (Canvas ShowPage).
Definition setFont (name : string) (size : Z) : M unit :=
  log (Canvas (SetFont name size)).
Definition setFillColor (color : string) : M unit :=
  log (Canvas (SetFillColor color)).
Definition drawString (x y : Qc) (text : string) : M unit :=
  log (Canvas (DrawString x y text)).
Definition save : M unit := log (Canvas Save).

(** [qr_img.save(path)]: the file is created or overwritten. *)
Definition img_save (img : qr_image) (path : string) : M unit :=
  λ w, (Returned tt,
        World (trace w ++ [ImgSave path img]) (<[path := img]> (files w))).

(** [c.drawImage(path, x, y, width, height)]: the file is read when the
    call is made. *)
Definition drawImage (path : string) (x y width height : Qc) : M unit :=
  λ w, match files w !! path with
       | Some img => log (Canvas (DrawImage path img x y width height)) w
       | None => (Raised (FileNotFoundError path), w)
       end.

(** [os.remove(path)]. *)
Definition os_remove (path : string) : M unit :=
  λ w, match files w !! path with
       | Some _ =>
           (Returned tt,
            World (trace w ++ [OsRemove path]) (delete path (files w)))
       | None => (Raised (FileNotFoundError path), w)
       end.

(** [output.seek(0); return output]: the bytes are what the canvas holds. *)
Definition get_output : M (list canvas_op) :=
  λ w, (Returned (canvas w), w).

(** ** The table [csv.DictReader] exposes *)

(** What [csv.reader] yields for the uploaded text: one list of cells per
    line, the empty list for a blank line. *)
Abbreviation csv_lines := (list (list string)).

(** A row as the reader yields it.  The entry a too long row gets under
    the key [None] ([restkey]) is never read by the engine and is left
    out. *)
Abbreviation row := (gmap string cell).

(** [reader.fieldnames]: the first line, [None] when there is no line. *)
Definition fieldnames (input : csv_lines) : option (list string) :=
  head input.

(** [dict(zip(fieldnames, row))], then [restval] under the names the row
    does not reach. *)
Definition dict_row (names : list string) (cells : list string) : row :=
  let d := foldl (λ (d : row) nv, <[nv.1 := Some nv.2]> d) ∅ (zip names cells) in
  foldl (λ (d : row) k, <[k := None]> d) d (drop (length cells) names).

(** The rows the [for] loop receives: blank lines are skipped. *)
Definition reader_rows (input : csv_lines) : list row :=
  match input with
  | [] => []
  | names :: lines =>
      map (dict_row names) (filter (λ l, l ≠ []) lines)
  end.

(** [row[key]]. *)
Definition getitem (r : row) (key : string) : M cell :=
  match r !! key with
  | Some v => mret v
  | None => raise (KeyError key)
  end.

Definition required_headers : list string := ["project"; "ID"; "lid"].

(** [required.issubset(other)]: [other] is iterated, which [None] does not
    support. *)
Definition issubset (required : list string) (other : option (list string))
    : M bool :=
  match other with
  | None => raise TypeError
  | Some names => mret (forallb (λ h, bool_decide (h ∈ names)) required)
  end.

(** ** The report *)

Section report.
Variable layout : layout_params.
Variable fields_to_display : list string.

Let margin := margin layout.
Let text_margin := text_margin layout.
Let qr_img_size := qr_img_size layout.
Let line_spacing := line_spacing layout.
Let horizontal_spacing := horizontal_spacing layout.
Let vertical_spacing := vertical_spacing layout.

Definition x_start : Qc := margin.
Definition y_start : Qc := letter.2 - margin - qr_img_size.

(** Lines 66-68: the right edge, [x + qr_img_size > letter[0] - margin]. *)
Definition page_check (x y : Qc) : M (Qc * Qc) :=
  if decide (letter.1 - margin < x + qr_img_size) then
    showPage;; mret (x_start, y)
  else mret (x, y).

(** Lines 62-68: the bottom of the column. *)
Definition column_check (x y : Qc) : M (Qc * Qc) :=
  if decide (y < margin) then
    let y := y_start in
    let x := x + (qr_img_size + horizontal_spacing) in
    page_check x y
  else mret (x, y).

(** Lines 87-95: the lines of text. *)
Definition draw_fields (text_x y : Qc) (p_value id_value lid_value : cell)
    : M unit :=
  let text_y := y + lit_2_2 * line_spacing in
  text_y ← (if bool_decide ("Project" ∈ fields_to_display) then
              drawString text_x text_y ("Project: " +:+ py_str p_value);;
              mret (text_y - line_spacing)
            else mret text_y);
  text_y ← (if bool_decide ("ID" ∈ fields_to_display) then
              drawString text_x text_y ("ID: " +:+ py_str id_value);;
              mret (text_y - line_spacing)
            else mret text_y);
  if bool_decide ("LID" ∈ fields_to_display) then
    drawString text_x text_y ("LID: " +:+ py_str lid_value)
  else mret tt.

(** Lines 62-99: one turn of the loop, from the cursor to the cursor. *)
Definition loop_body (r : row) (cur : Qc * Qc) : M (Qc * Qc) :=
  '(x, y) ← column_check cur.1 cur.2;
  p_value ← getitem r "project";
  id_value ← getitem r "ID";
  lid_value ← getitem r "lid";
  let qr_img := generate_qr_code lid_value in
  let qr_img_path := py_str lid_value +:+ "_qrcode.png" in
  img_save qr_img qr_img_path;;
  drawImage qr_img_path x y qr_img_size qr_img_size;;
  let text_x := x + qr_img_size + text_margin in
  setFont "Helvetica-Bold" 6;;
  setFillColor "black";;
  draw_fields text_x y p_value id_value lid_value;;
  os_remove qr_img_path;;
  mret (x, y - (qr_img_size + vertical_spacing + Qc_of_Z 3 * line_spacing)).

(** Line 61: [for row in reader]. *)
Fixpoint for_rows (rows : list row) (cur : Qc * Qc) : M (Qc * Qc) :=
  match rows with
  | [] => mret cur
  | r :: rows' => cur' ← loop_body r cur; for_rows rows' cur'
  end.

(** Lines 43-103, on the canvas line 37 has just created. *)
Definition report (input : csv_lines) : M (list canvas_op) :=
  ok ← issubset required_headers (fieldnames input);
  if negb ok then raise (ValueError "CSV file is missing required headers")
  else
    for_rows (reader_rows input) (x_start, y_start);;
    save;;
    get_output.

(** A call starts with a canvas nothing has been drawn on, in a working
    directory holding [fs]. *)
Definition generate_child_health_report (input : csv_lines)
    (fs : gmap string qr_image) : outcome (list canvas_op) * world :=
  report input (World [] fs).
End report.

(** ** Vocabulary of the statements *)

(** The three cells the loop reads from a row. *)
Definition has_fields (r : row) (p i l : cell) : Prop :=
  r !! "project" = Some p ∧ r !! "ID" = Some i ∧ r !! "lid" = Some l.

(** The file one turn of the loop writes the QR image to. *)
Definition label_path (lid_value : cell) : string :=
  py_str lid_value +:+ "_qrcode.png".

(** The path the turn of a row uses. *)
Definition path_of (r : row) : string :=
  label_path (default None (r !! "lid")).

(** A row the loop can read its three cells from. *)
Definition readable (r : row) : Prop := ∃ p i l, has_fields r p i l.

(** The working directory after the turns of [rows]. *)
Definition swept (fs : gmap string qr_image) (rows : list row)
    : gmap string qr_image :=
  foldl (λ fs r, delete (path_of r) fs) fs rows.

(** The distance between two labels of a column. *)
Definition row_pitch (lp : layout_params) : Qc :=
  qr_img_size lp + vertical_spacing lp + Qc_of_Z 3 * line_spacing lp.

(** The text block as the specification words it: Project, then ID, then
    LID, each only when selected, starting [2.2] line pitches above the
    cursor and one line pitch lower after a Project or an ID line. *)
Definition text_lines (lp : layout_params) (fields : list string)
    (text_x y : Qc) (p i l : cell) : list canvas_op :=
  let sel k := bool_decide (k ∈ fields) in
  let y0 := y + lit_2_2 * line_spacing lp in
  let y1 := if sel "Project" then y0 - line_spacing lp else y0 in
  let y2 := if sel "ID" then y1 - line_spacing lp else y1 in
  (if sel "Project" then [DrawString text_x y0 ("Project: " +:+ py_str p)] else [])
  ++ (if sel "ID" then [DrawString text_x y1 ("ID: " +:+ py_str i)] else [])
  ++ (if sel "LID" then [DrawString text_x y2 ("LID: " +:+ py_str l)] else []).

(** The calls that put one label on the canvas with the QR image at
    [(x, y)]. *)
Definition label_calls (lp : layout_params) (fields : list string)
    (x y : Qc) (p i l : cell) : list canvas_op :=
  DrawImage (label_path l) (generate_qr_code l) x y (qr_img_size lp) (qr_img_size lp)
  :: SetFont "Helvetica-Bold" 6
  :: SetFillColor "black"
  :: text_lines lp fields (x + qr_img_size lp + text_margin lp) y p i l.

(** What the turn of one row leaves in the trace once its place is known:
    the image file is written, the label is drawn, the file is removed. *)
Definition label_events (lp : layout_params) (fields : list string)
    (x y : Qc) (p i l : cell) : list event :=
  ImgSave (label_path l) (generate_qr_code l)
  :: (Canvas <$> label_calls lp fields x y p i l) ++ [OsRemove (label_path l)].

(** Where the label of a turn goes when the turn starts with the cursor at
    [cur], and whether a page is started first: the closed form of
    [column_check]. *)
Definition page_full (lp : layout_params) (cur : Qc * Qc) : Prop :=
  cur.2 < margin lp ∧
  letter.1 - margin lp
    < cur.1 + (qr_img_size lp + horizontal_spacing lp) + qr_img_size lp.

Definition placement (lp : layout_params) (cur : Qc * Qc) : Qc * Qc :=
  if decide (cur.2 < margin lp) then
    if decide (page_full lp cur) then (x_start lp, y_start lp)
    else (cur.1 + (qr_img_size lp + horizontal_spacing lp), y_start lp)
  else cur.

Definition page_break (lp : layout_params) (cur : Qc * Qc) : list event :=
  if decide (page_full lp cur) then [Canvas ShowPage] else [].

(** The block of events the turn of row [r] contributes to a trace. *)
Definition turn_block (lp : layout_params) (fields : list string)
    (r : row) (blk : list event) : Prop :=
  ∃ p i l x y brk,
    has_fields r p i l ∧
    (brk = [] ∨ brk = [Canvas ShowPage] ∧ x = x_start lp ∧ y = y_start lp) ∧
    blk = brk ++ label_events lp fields x y p i l.

(** The block of calls the label of row [r] contributes to a document. *)
Definition placed_label (lp : layout_params) (fields : list string)
    (r : row) (blk : list canvas_op) : Prop :=
  ∃ p i l x y brk,
    has_fields r p i l ∧
    (brk = [] ∨ brk = [ShowPage] ∧ x = x_start lp ∧ y = y_start lp) ∧
    blk = brk ++ label_calls lp fields x y p i l.

(** The data of the QR images a document shows, in drawing order. *)
Definition drawn_data (o : canvas_op) : option cell :=
  match o with
  | DrawImage _ img _ _ _ _ => Some (qr_data img)
  | _ => None
  end.

(** The header check of line 47 as a proposition. *)
Definition covers (names : list string) : Prop :=
  ∀ h, h ∈ required_headers → h ∈ names.

(** The page breaks of a document all sit right before an image drawn at
    [(x0, y0)]. *)
Definition breaks_before (x0 y0 : Qc) (doc : list canvas_op) : Prop :=
  ∀ pre post, doc = pre ++ ShowPage :: post →
    ∃ path img w h rest, post = DrawImage path img x0 y0 w h :: rest.

(** ** The layout as a dictionary *)

(** Lines 24-32: the dictionary [set_layout_parameters] returns. *)
Definition set_layout_parameters_dict
    (margin text_margin qr_img_size line_spacing
     horizontal_spacing vertical_spacing : Qc) : gmap string Qc :=
  {[ "margin" := margin;
     "text_margin" := text_margin;
     "qr_img_size" := qr_img_size;
     "line_spacing" := line_spacing;
     "horizontal_spacing" := horizontal_spacing;
     "vertical_spacing" := vertical_spacing ]}.

(** [layout_params[key]]. *)
Definition layout_getitem (d : gmap string Qc) (key : string) : M Qc :=
  match d !! key with
  | Some v => mret v
  | None => raise (KeyError key)
  end.

(** The keys lines 50-55 read, in the order they read them. *)
Definition layout_keys : list string :=
  ["margin"; "text_margin"; "qr_img_size"; "line_spacing";
   "horizontal_spacing"; "vertical_spacing"].

(** Lines 50-55. *)
Definition read_layout (d : gmap string Qc) : M layout_params :=
  margin ← layout_getitem d "margin";
  text_margin ← layout_getitem d "text_margin";
  qr_img_size ← layout_getitem d "qr_img_size";
  line_spacing ← layout_getitem d "line_spacing";
  horizontal_spacing ← layout_getitem d "horizontal_spacing";
  vertical_spacing ← layout_getitem d "vertical_spacing";
  mret (LayoutParams margin text_margin qr_img_size line_spacing
                     horizontal_spacing vertical_spacing).

(** Lines 43-103 with the layout read from the dictionary the caller
    passes: the header check, then the six reads, then the loop. *)
Definition report_dict (d : gmap string Qc) (fields_to_display : list string)
    (input : csv_lines) : M (list canvas_op) :=
  ok ← issubset required_headers (fieldnames input);
  if negb ok then raise (ValueError "CSV file is missing required headers")
  else
    lp ← read_layout d;
    for_rows lp fields_to_display (reader_rows input)
      (x_start lp, y_start lp);;
    save;;
    get_output.

(** ** The page of the application *)

(** What the script shows. *)
Inductive ui_event : Set :=
  | StTitle (body : string)
  | StSidebarHeader (body : string)
  | StDownloadButton (label : string) (data : list canvas_op)
      (file_name mime : string)
  | StError (body : string).

(** [str(e)] for the exceptions of the engine, as CPython words them. *)
Definition exn_str (e : exn) : string :=
  match e with
  | ValueError msg => msg
  | TypeError => "'NoneType' object is not iterable"
  | KeyError key => "'" +:+ key +:+ "'"
  | FileNotFoundError path =>
      "[Errno 2] No such file or directory: '" +:+ path +:+ "'"
  end.

(** What the widgets of one run of the script return: the selection, the
    six sliders and the uploaded file, if any, given by the rows
    [csv.reader] yields for it. *)
Record widgets : Set := Widgets {
  fields_selected : list string;
  margin_cm : Qc;
  text_margin_cm : Qc;
  qr_img_size_cm : Qc;
  line_spacing_pt : Qc;
  horizontal_spacing_cm : Qc;
  vertical_spacing_cm : Qc;
  uploaded_file : option csv_lines
}.

(** [reportlab.lib.units.cm], that is [72 / 2.54] points. *)
Definition cm : Qc := Q2Qc (7200 # 254).

(** Lines 106-136: one run of the script in a working directory holding
    [fs]. *)
Definition streamlit_app (ws : widgets) (fs : gmap string qr_image)
    : list ui_event * world :=
  let layout_params :=
    set_layout_parameters_dict
      (margin_cm ws * cm) (text_margin_cm ws * cm) (qr_img_size_cm ws * cm)
      (line_spacing_pt ws)
      (horizontal_spacing_cm ws * cm) (vertical_spacing_cm ws * cm) in
  let shown := [StTitle "Generate QR Code";
                StSidebarHeader "Layout Parameters"] in
  match uploaded_file ws with
  | None => (shown, World [] fs)
  | Some input =>
      match report_dict layout_params (fields_selected ws) input
              (World [] fs) with
      | (Returned output, w) =>
          (shown ++ [StDownloadButton "Download PDF" output "QR_file.pdf"
                       "application/pdf"], w)
      | (Raised e, w) =>
          (shown ++ [StError ("An error occurred: " +:+ exn_str e)], w)
      end
  end.

(** ** Vocabulary of the further statements *)

(** The cell a row holds under a key, [None] when it holds none. *)
Definition cell_of (r : row) (key : string) : cell :=
  default None (r !! key).

(** The events the loop adds to the trace for [rows] when it starts with
    the cursor at [cur]. *)
Fixpoint sheet_events (lp : layout_params) (fields : list string)
    (rows : list row) (cur : Qc * Qc) : list event :=
  match rows with
  | [] => []
  | r :: rows' =>
      let pl := placement lp cur in
      page_break lp cur
      ++ label_events lp fields pl.1 pl.2
           (cell_of r "project") (cell_of r "ID") (cell_of r "lid")
      ++ sheet_events lp fields rows' (pl.1, pl.2 - row_pitch lp)
  end.

(** The cursor the loop ends with. *)
Fixpoint end_cursor (lp : layout_params) (rows : list row) (cur : Qc * Qc)
    : Qc * Qc :=
  match rows with
  | [] => cur
  | r :: rows' =>
      let pl := placement lp cur in
      end_cursor lp rows' (pl.1, pl.2 - row_pitch lp)
  end.


(** Which of the three lines a selection asks for. *)
Definition selects (fields : list string) : bool * bool * bool :=
  (bool_decide ("Project" ∈ fields), bool_decide ("ID" ∈ fields),
   bool_decide ("LID" ∈ fields)).

(** Two rows hold the same three cells. *)
Definition same_cells (r r' : row) : Prop :=
  r !! "project" = r' !! "project" ∧ r !! "ID" = r' !! "ID"
  ∧ r !! "lid" = r' !! "lid".

(** ** Sample inputs *)

(** The values the sliders of lines 113-118 start with. *)
Definition default_layout : layout_params :=
  set_layout_parameters (Q2Qc (28 # 10) * cm) (Q2Qc (5 # 100) * cm)
                        (Q2Qc (8 # 10) * cm) (Qc_of_Z 8)
                        (Q2Qc (28 # 10) * cm) (Qc_of_Z 1 * cm).

Definition three_records : csv_lines :=
  [["project"; "ID"; "lid"]; ["P1"; "A1"; "L1"]; ["P2"; "A2"; "L2"];
   ["P3"; "A3"; "L3"]].

(** A call on the canvas without its coordinates. *)
Definition call_name (o : canvas_op) : string :=
  match o with
  | ShowPage => "showPage"
  | DrawImage path _ _ _ _ _ => "drawImage " +:+ path
  | SetFont name _ => "setFont " +:+ name
  | SetFillColor color => "setFillColor " +:+ color
  | DrawString _ _ text => "drawString " +:+ text
  | Save => "save"
  end.

(** A sheet whose margins leave room for one label per page. *)
Definition tight_layout : layout_params :=
  set_layout_parameters (Qc_of_Z 300) (Qc_of_Z 2) (Qc_of_Z 100) (Qc_of_Z 8)
                        (Qc_of_Z 100) (Qc_of_Z 200).

(** A sheet with one label per column and several columns per page. *)
Definition wide_layout : layout_params :=
  set_layout_parameters (Qc_of_Z 100) (Qc_of_Z 2) (Qc_of_Z 100) (Qc_of_Z 8)
                        (Qc_of_Z 50) (Qc_of_Z 400).

Definition sample_table : csv_lines :=
  [["project"; "ID"; "lid"]; ["P1"; "A1"; "L1"]; []; ["P2"; "A2"];
   ["P3"; "A3"; "L3"; "extra"]].

(** The same table with the [ID] column spelled in lower case. *)
Definition lowercase_table : csv_lines :=
  [["project"; "id"; "lid"]; ["P1"; "A1"; "L1"]].

Definition sample_row : row := dict_row ["project"; "ID"; "lid"] ["P1"; "A1"; "L1"].

(** ** The monad *)

Lemma bind_returned {A B} (m : M A) (k : A → M B) w a w' :
  m w = (Returned a, w') → (m ≫= k) w = k a w'.
Proof. intros Hm. unfold mbind, M_bind. by rewrite Hm. Qed.

Lemma canvas_of_calls (ops : list canvas_op) :
  omap canvas_call (Canvas <$> ops) = ops.
Proof. induction ops as [|o ops IH]; csimpl; [done|]. by f_equal. Qed.

Lemma omap_concat {A B} (f : A → option B) (ls : list (list A)) :
  omap f (concat ls) = concat (omap (M:=list) f <$> ls).
Proof.
  induction ls as [|l ls IH]; csimpl; [done|]. by rewrite omap_app, IH.
Qed.

(** Runs the binds and the logging calls of a computation applied to a
    world. *)
Ltac run :=
  cbv [mbind M_bind mret M_ret raise log showPage setFont setFillColor
       drawString save img_save get_output];
  cbn [trace files fst snd].

(** ** One turn of the loop *)

Section turn.
Context (lp : layout_params) (fields : list string).

Lemma column_check_run (cur : Qc * Qc) (w : world) :
  column_check lp cur.1 cur.2 w
  = (Returned (placement lp cur),
     World (trace w ++ page_break lp cur) (files w)).
Proof.
  destruct w as [t fs]. unfold column_check, page_check, placement, page_break.
  destruct (decide (cur.2 < margin lp)) as [Hy|Hy].
  - destruct (decide (letter.1 - margin lp < _)) as [Hx|Hx].
    + rewrite !decide_True by (by split). done.
    + rewrite !decide_False by (by intros [_ ?]).
      run. by rewrite app_nil_r.
  - rewrite decide_False by (by intros [? _]).
    destruct cur. run. by rewrite app_nil_r.
Qed.

Lemma draw_fields_run (text_x y : Qc) (p i l : cell) (w : world) :
  draw_fields lp fields text_x y p i l w
  = (Returned tt,
     World (trace w ++ (Canvas <$> text_lines lp fields text_x y p i l))
           (files w)).
Proof.
  destruct w as [t fs]. unfold draw_fields, text_lines.
  destruct (bool_decide ("Project" ∈ fields));
    destruct (bool_decide ("ID" ∈ fields));
    destruct (bool_decide ("LID" ∈ fields));
    run; rewrite <- ?app_assoc, ?app_nil_r; reflexivity.
Qed.

Lemma loop_body_run (r : row) (cur : Qc * Qc) (w : world) (p i l : cell) :
  has_fields r p i l →
  loop_body lp fields r cur w
  = (Returned ((placement lp cur).1, (placement lp cur).2 - row_pitch lp),
     World (trace w ++ page_break lp cur
              ++ label_events lp fields (placement lp cur).1 (placement lp cur).2 p i l)
           (delete (label_path l) (files w))).
Proof.
  intros (Hp & Hi & Hl). unfold loop_body.
  rewrite (bind_returned _ _ _ _ _ (column_check_run cur w)).
  destruct (placement lp cur) as [x y]. unfold getitem.
  rewrite Hp, Hi, Hl. run.
  unfold drawImage. run. rewrite lookup_insert_eq. run.
  rewrite draw_fields_run. run.
  unfold os_remove. run. rewrite lookup_insert_eq.
  rewrite delete_insert_eq. unfold label_events, label_calls, label_path.
  rewrite <- !app_assoc. reflexivity.
Qed.
End turn.

(** ** The loop *)

Section loop.
Context (lp : layout_params) (fields : list string).

Lemma for_rows_app (pre post : list row) (cur : Qc * Qc) (w : world) :
  for_rows lp fields (pre ++ post) cur w
  = (for_rows lp fields pre cur ≫= for_rows lp fields post) w.
Proof.
  revert cur w. induction pre as [|r pre IH]; intros cur w; [done|].
  cbn [app for_rows]. unfold mbind, M_bind in *.
  destruct (loop_body lp fields r cur w) as [[cur'|e] w']; [|done].
  apply IH.
Qed.

Lemma for_rows_turn (pre : list row) (r : row) (start cur : Qc * Qc)
    (w0 w : world) :
  for_rows lp fields pre start w0 = (Returned cur, w) →
  for_rows lp fields (pre ++ [r]) start w0 = loop_body lp fields r cur w.
Proof.
  intros Hpre. rewrite for_rows_app.
  rewrite (bind_returned _ _ _ _ _ Hpre). cbn [for_rows].
  unfold mbind, M_bind, mret, M_ret.
  by destruct (loop_body lp fields r cur w) as [[cur'|e] w'].
Qed.

Lemma path_of_fields (r : row) (p i l : cell) :
  has_fields r p i l → path_of r = label_path l.
Proof. intros (_ & _ & Hl). unfold path_of. by rewrite Hl. Qed.

Lemma for_rows_run (rows : list row) (cur : Qc * Qc) (w : world) :
  Forall readable rows →
  ∃ blocks cur',
    for_rows lp fields rows cur w
    = (Returned cur',
       World (trace w ++ concat blocks) (swept (files w) rows))
    ∧ Forall2 (turn_block lp fields) rows blocks.
Proof.
  intros Hrows. revert cur w.
  induction Hrows as [|r rows (p & i & l & Hr) _ IH]; intros cur w.
  - exists [], cur. split; [|constructor].
    destruct w. cbn. by rewrite app_nil_r.
  - cbn [for_rows].
    rewrite (bind_returned _ _ _ _ _ (loop_body_run lp fields r cur w p i l Hr)).
    edestruct IH as (blocks & cur' & -> & Hblocks).
    exists ((page_break lp cur
               ++ label_events lp fields (placement lp cur).1
                    (placement lp cur).2 p i l) :: blocks), cur'.
    split.
    + cbn [trace files concat swept foldl].
      by rewrite (path_of_fields r p i l Hr), <- !app_assoc.
    + constructor; [|done].
      exists p, i, l, (placement lp cur).1, (placement lp cur).2,
        (page_break lp cur).
      split; [done|]. split; [|done].
      unfold page_break, placement.
      destruct (decide (page_full lp cur)) as [[Hy ?]|?]; [|by left].
      right. by rewrite decide_True.
Qed.

Lemma swept_lookup (fs : gmap string qr_image) (rows : list row) (k : string) :
  swept fs rows !! k
  = if decide (k ∈ path_of <$> rows) then None else fs !! k.
Proof.
  revert fs. induction rows as [|r rows IH]; intros fs.
  - cbn. rewrite decide_False; [done|apply not_elem_of_nil].
  - change (swept fs (r :: rows)) with (swept (delete (path_of r) fs) rows).
    rewrite IH, fmap_cons.
    destruct (decide (k ∈ path_of <$> rows)) as [Hin|Hin].
    + rewrite decide_True; [done|by right].
    + destruct (decide (k = path_of r)) as [->|Hk].
      * rewrite decide_True by left. apply lookup_delete_eq.
      * rewrite decide_False by (by intros [?|?]%elem_of_cons).
        by apply lookup_delete_ne.
Qed.
End loop.

(** ** The reader *)

Lemma foldl_insert_is_Some {A V} (key : A → string) (val : A → V)
    (l : list A) (d : gmap string V) (k : string) :
  k ∈ key <$> l ∨ is_Some (d !! k) →
  is_Some (foldl (λ d a, <[key a := val a]> d) d l !! k).
Proof.
  revert d. induction l as [|a l IH]; intros d [Hk|Hk]; cbn [foldl].
  - by apply elem_of_nil in Hk.
  - done.
  - apply IH. rewrite fmap_cons in Hk.
    apply elem_of_cons in Hk as [->|Hk]; [right|by left].
    rewrite lookup_insert_eq. by eexists.
  - apply IH. right. rewrite lookup_insert_is_Some.
    destruct (decide (key a = k)); [by left|by right].
Qed.

Lemma zip_or_drop (names cells : list string) (k : string) :
  k ∈ names → k ∈ (zip names cells).*1 ∨ k ∈ drop (length cells) names.
Proof.
  revert cells. induction names as [|n names IH]; intros cells Hk.
  - by apply elem_of_nil in Hk.
  - destruct cells as [|c cells]; [by right|]. cbn.
    apply elem_of_cons in Hk as [->|Hk]; [left; left|].
    destruct (IH cells Hk) as [?|?]; [left; by right|by right].
Qed.

Lemma dict_row_is_Some (names cells : list string) (k : string) :
  k ∈ names → is_Some (dict_row names cells !! k).
Proof.
  intros Hk. unfold dict_row.
  apply (foldl_insert_is_Some id (λ _, None)). rewrite list_fmap_id.
  destruct (zip_or_drop names cells k Hk) as [Hz|Hd]; [right|by left].
  apply (foldl_insert_is_Some fst (λ nv, Some nv.2)). by left.
Qed.

Lemma covers_spec (names : list string) :
  forallb (λ h, bool_decide (h ∈ names)) required_headers = true
  ↔ covers names.
Proof.
  unfold covers. rewrite <- Is_true_true, forallb_True, Forall_forall.
  by setoid_rewrite bool_decide_spec.
Qed.

Lemma covers_readable (names cells : list string) :
  covers names → readable (dict_row names cells).
Proof.
  intros Hc.
  destruct (dict_row_is_Some names cells "project") as [p Hp];
    [apply Hc; set_solver|].
  destruct (dict_row_is_Some names cells "ID") as [i Hi];
    [apply Hc; set_solver|].
  destruct (dict_row_is_Some names cells "lid") as [l Hl];
    [apply Hc; set_solver|].
  by exists p, i, l.
Qed.

Lemma reader_rows_readable (input : csv_lines) (names : list string) :
  fieldnames input = Some names → covers names →
  Forall readable (reader_rows input).
Proof.
  destruct input as [|names' lines]; intros [= <-] Hc; cbn.
  apply Forall_fmap, Forall_forall. intros cells _.
  by apply covers_readable.
Qed.

(** ** The whole call *)

Section call.
Context (lp : layout_params) (fields : list string).

Lemma report_missing (input : csv_lines) (names : list string) (w : world) :
  fieldnames input = Some names → ¬ covers names →
  report lp fields input w
  = (Raised (ValueError "CSV file is missing required headers"), w).
Proof.
  intros Hn Hc. unfold report. rewrite Hn. unfold issubset. run.
  rewrite <- covers_spec in Hc. apply not_true_is_false in Hc.
  by rewrite Hc.
Qed.

Lemma report_run (input : csv_lines) (names : list string) (w : world) :
  fieldnames input = Some names → covers names →
  ∃ blocks,
    report lp fields input w
    = (Returned (canvas w ++ concat (omap (M:=list) canvas_call <$> blocks)
                   ++ [Save]),
       World (trace w ++ concat blocks ++ [Canvas Save])
             (swept (files w) (reader_rows input)))
    ∧ Forall2 (turn_block lp fields) (reader_rows input) blocks.
Proof.
  intros Hn Hc. unfold report. rewrite Hn. unfold issubset. run.
  rewrite (proj2 (covers_spec names) Hc). cbn [negb].
  destruct (for_rows_run lp fields (reader_rows input)
              (x_start lp, y_start lp) w
              (reader_rows_readable input names Hn Hc))
    as (blocks & cur' & Hrun & Hblocks).
  exists blocks. split; [|done]. rewrite Hrun. unfold canvas. run.
  by rewrite <- !app_assoc, !omap_app, omap_concat.
Qed.
End call.

(** ** Documents *)

(** Closes a goal [o ∉ l] for a list [l] of calls that all differ from
    [o] by their constructor. *)
Ltac not_among :=
  let H := fresh in
  intros H;
  repeat (apply elem_of_cons in H as [H|H]; [discriminate H|]);
  by apply elem_of_nil in H.

Lemma text_lines_no_image (lp : layout_params) (fields : list string)
    (text_x y : Qc) (p i l : cell) :
  omap drawn_data (text_lines lp fields text_x y p i l) = []
  ∧ ShowPage ∉ text_lines lp fields text_x y p i l.
Proof.
  unfold text_lines.
  destruct (bool_decide ("Project" ∈ fields));
    destruct (bool_decide ("ID" ∈ fields));
    destruct (bool_decide ("LID" ∈ fields));
    (split; [reflexivity|cbn; not_among]).
Qed.

Lemma turn_block_calls (lp : layout_params) (fields : list string)
    (r : row) (blk : list event) :
  turn_block lp fields r blk →
  placed_label lp fields r (omap canvas_call blk).
Proof.
  intros (p & i & l & x & y & brk & Hr & Hbrk & ->).
  exists p, i, l, x, y, (omap canvas_call brk). split; [done|]. split.
  - destruct Hbrk as [->|(-> & -> & ->)]; [by left|by right].
  - unfold label_events. rewrite omap_app. f_equal. csimpl.
    by rewrite omap_app, canvas_of_calls, app_nil_r.
Qed.


Lemma breaks_before_app (x0 y0 : Qc) (ops doc : list canvas_op) :
  ShowPage ∉ ops → breaks_before x0 y0 doc → breaks_before x0 y0 (ops ++ doc).
Proof.
  intros Hops Hdoc pre post Heq.
  apply app_eq_inv in Heq as [(k & -> & Heq)|(k & -> & Heq)].
  - destruct k as [|o k]; [apply (Hdoc [] post); by rewrite Heq|].
    injection Heq as <- _. set_solver.
  - by apply (Hdoc k post).
Qed.

Lemma placed_labels_breaks (lp : layout_params) (fields : list string)
    (rows : list row) (blocks : list (list canvas_op)) :
  Forall2 (placed_label lp fields) rows blocks →
  breaks_before (x_start lp) (y_start lp) (concat blocks ++ [Save]).
Proof.
  induction 1 as [|r blk rows blocks Hblk _ IH].
  - intros pre post Heq. cbn in Heq.
    assert (ShowPage ∈ [Save]) as Hin by (rewrite Heq; set_solver).
    revert Hin. not_among.
  - destruct Hblk as (p & i & l & x & y & brk & _ & Hbrk & ->).
    cbn [concat]. rewrite <- !app_assoc.
    assert (ShowPage ∉ label_calls lp fields x y p i l) as Hlab.
    { unfold label_calls. intros Hin.
      do 3 (apply elem_of_cons in Hin as [Hin|Hin]; [discriminate Hin|]).
      by apply (proj2 (text_lines_no_image _ _ _ _ _ _ _)) in Hin. }
    destruct Hbrk as [->|(-> & -> & ->)].
    + cbn [app]. by apply breaks_before_app.
    + intros pre post Heq. destruct pre as [|o pre].
      * injection Heq as <-. unfold label_calls. cbn. by eexists _, _, _, _, _.
      * injection Heq as <- Heq.
        by apply (breaks_before_app _ _ _ _ Hlab IH pre post).
Qed.

(** ** The documents a call returns *)

Lemma report_labels (lp : layout_params) (fields : list string)
    (input : csv_lines) (names : list string) (fs : gmap string qr_image) :
  fieldnames input = Some names → covers names →
  ∃ blocks w',
    generate_child_health_report lp fields input fs
    = (Returned (concat blocks ++ [Save]), w')
    ∧ Forall2 (placed_label lp fields) (reader_rows input) blocks.
Proof.
  intros Hn Hc.
  destruct (report_run lp fields input names (World [] fs) Hn Hc)
    as (blocks & Hrun & Hblocks).
  eexists _, _. split; [exact Hrun|].
  apply Forall2_fmap_r.
  eapply Forall2_impl; [exact Hblocks|]. apply turn_block_calls.
Qed.

(** Three records with the default layout and the default selection
    fit on one page, top to bottom in input order. *)
Example default_sheet :
  match (generate_child_health_report default_layout ["Project"; "LID"]
           three_records ∅).1 with
  | Returned doc => call_name <$> doc
  | Raised _ => []
  end
  = ["drawImage L1_qrcode.png"; "setFont Helvetica-Bold";
     "setFillColor black"; "drawString Project: P1"; "drawString LID: L1";
     "drawImage L2_qrcode.png"; "setFont Helvetica-Bold";
     "setFillColor black"; "drawString Project: P2"; "drawString LID: L2";
     "drawImage L3_qrcode.png"; "setFont Helvetica-Bold";
     "setFillColor black"; "drawString Project: P3"; "drawString LID: L3";
     "save"].
Proof. vm_compute. reflexivity. Qed.

(** ** The header check *)

(** C1. When the table has a header row that lacks one of [project], [ID],
    [lid] (compared case-sensitively), the call raises the error of line 48
    and returns no document; the check comes before the loop, so whatever
    the rows are, the trace of the call is empty: nothing was drawn on the
    canvas, no page was started, no file was written or removed. *)
Theorem missing_header_raises (lp : layout_params) (fields : list string)
    (input : csv_lines) (names : list string) (fs : gmap string qr_image) :
  fieldnames input = Some names → ¬ covers names →
  generate_child_health_report lp fields input fs
  = (Raised (ValueError "CSV file is missing required headers"), World [] fs).
Proof.
  intros Hn Hc. unfold generate_child_health_report.
  by apply report_missing with names.
Qed.

Lemma missing_header_raises_witness :
  generate_child_health_report tight_layout ["Project"; "LID"]
    lowercase_table ∅
  = (Raised (ValueError "CSV file is missing required headers"), World [] ∅).
Proof.
  apply (missing_header_raises _ _ _ ["project"; "id"; "lid"]).
  - reflexivity.
  - rewrite <- covers_spec. vm_compute. discriminate.
Defined.


(** ** One label per record *)



(** ** Page breaks *)

(** C9. The page test sits inside the column test, after the column test
    has put [y] back to [y_start]: a turn that starts a page leaves the
    checks with the cursor at [(x_start, y_start)], and a turn that does
    not start a page adds no page break.  So in every document the call
    returns, each page break is immediately followed by the QR image of the
    next label, drawn at [(x_start, y_start)]: no page starts partway
    down. *)
Theorem page_breaks_start_at_top (lp : layout_params) (fields : list string)
    (input : csv_lines) (names : list string) (fs : gmap string qr_image) :
  fieldnames input = Some names → covers names →
  (∀ (cur : Qc * Qc) (w : world),
     ∃ cur' brk,
       column_check lp cur.1 cur.2 w
       = (Returned cur', World (trace w ++ brk) (files w))
       ∧ (brk = [Canvas ShowPage] ∧ cur' = (x_start lp, y_start lp)
          ∨ brk = []))
  ∧ ∃ doc w',
      generate_child_health_report lp fields input fs = (Returned doc, w')
      ∧ breaks_before (x_start lp) (y_start lp) doc.
Proof.
  intros Hn Hc. split.
  - intros cur w. exists (placement lp cur), (page_break lp cur).
    split; [apply column_check_run|].
    unfold page_break, placement.
    destruct (decide (page_full lp cur)) as [[Hy ?]|?]; [left|by right].
    by rewrite decide_True.
  - destruct (report_labels lp fields input names fs Hn Hc)
      as (blocks & w' & Hrun & Hlabels).
    eexists _, w'. split; [exact Hrun|].
    by apply placed_labels_breaks with fields (reader_rows input).
Qed.

Lemma page_breaks_start_at_top_witness :
  (∀ (cur : Qc * Qc) (w : world),
     ∃ cur' brk,
       column_check tight_layout cur.1 cur.2 w
       = (Returned cur', World (trace w ++ brk) (files w))
       ∧ (brk = [Canvas ShowPage]
          ∧ cur' = (x_start tight_layout, y_start tight_layout)
          ∨ brk = []))
  ∧ ∃ doc w',
      generate_child_health_report tight_layout ["Project"] sample_table ∅
      = (Returned doc, w')
      ∧ breaks_before (x_start tight_layout) (y_start tight_layout) doc.
Proof.
  apply (page_breaks_start_at_top _ _ _ ["project"; "ID"; "lid"]).
  - reflexivity.
  - rewrite <- covers_spec. vm_compute. reflexivity.
Defined.

(** ** The cursor at the turn of a record

    The statements about one record [r] are made at its turn: the loop has
    run over the records [pre] before it, from the cursor [start] in the
    world [w0], and has left the cursor [cur] in the world [w];
    [for_rows (pre ++ [r])] then gives the cursor and the world the turn of
    [r] leaves.  In a call, [start] is [(x_start, y_start)], [w0] has an
    empty trace, and [pre ++ [r]] is a prefix of the rows of the reader. *)

Section cursor.
Context (lp : layout_params).

Lemma placement_full (cur : Qc * Qc) :
  page_full lp cur →
  placement lp cur = (x_start lp, y_start lp)
  ∧ page_break lp cur = [Canvas ShowPage].
Proof.
  intros Hfull. pose proof Hfull as [Hy _]. unfold placement, page_break.
  by rewrite (decide_True _ _ Hy), !(decide_True _ _ Hfull).
Qed.

Lemma placement_column (cur : Qc * Qc) :
  cur.2 < margin lp → ¬ page_full lp cur →
  placement lp cur
  = (cur.1 + (qr_img_size lp + horizontal_spacing lp), y_start lp)
  ∧ page_break lp cur = [].
Proof.
  intros Hy Hfull. unfold placement, page_break.
  by rewrite (decide_True _ _ Hy), !(decide_False _ _ Hfull).
Qed.

Lemma placement_stay (cur : Qc * Qc) :
  margin lp ≤ cur.2 → placement lp cur = cur ∧ page_break lp cur = [].
Proof.
  intros Hy%Qcle_ngt. unfold placement, page_break.
  rewrite (decide_False _ _ Hy), decide_False; [done|]. by intros [? _].
Qed.
End cursor.

(** C3. Take a turn that starts with [y < margin] and for which, after the
    column advance, [x + qr_img_size > letter[0] - margin].  The page test
    then emits a page break and hands back [x_start] with the [y] it was
    given, whatever that [y] is; and the record of the turn is the first
    thing drawn after the break, with its QR image at [x = x_start]. *)
Theorem page_wrap (lp : layout_params) (fields : list string)
    (pre : list row) (r : row) (start cur : Qc * Qc) (w0 w : world)
    (p i l : cell) :
  for_rows lp fields pre start w0 = (Returned cur, w) →
  has_fields r p i l →
  cur.2 < margin lp →
  letter.1 - margin lp
    < cur.1 + (qr_img_size lp + horizontal_spacing lp) + qr_img_size lp →
  (∀ y, page_check lp (cur.1 + (qr_img_size lp + horizontal_spacing lp)) y w
        = (Returned (x_start lp, y),
           World (trace w ++ [Canvas ShowPage]) (files w)))
  ∧ for_rows lp fields (pre ++ [r]) start w0
    = (Returned (x_start lp, y_start lp - row_pitch lp),
       World (trace w ++ Canvas ShowPage
                :: label_events lp fields (x_start lp) (y_start lp) p i l)
             (delete (label_path l) (files w))).
Proof.
  intros Hpre Hr Hy Hx. split.
  - intros y. unfold page_check. by rewrite (decide_True _ _ Hx).
  - rewrite (for_rows_turn lp fields pre r start cur w0 w Hpre).
    rewrite (loop_body_run lp fields r cur w p i l Hr).
    by destruct (placement_full lp cur (conj Hy Hx)) as [-> ->].
Qed.

Lemma page_wrap_witness :
  for_rows tight_layout ["Project"] ([sample_row] ++ [sample_row])
    (x_start tight_layout, y_start tight_layout) (World [] ∅)
  = (Returned (x_start tight_layout,
               y_start tight_layout - row_pitch tight_layout),
     World
       (label_events tight_layout ["Project"] (x_start tight_layout)
          (y_start tight_layout) (Some "P1") (Some "A1") (Some "L1")
        ++ Canvas ShowPage
           :: label_events tight_layout ["Project"] (x_start tight_layout)
                (y_start tight_layout) (Some "P1") (Some "A1") (Some "L1"))
       (delete (label_path (Some "L1")) ∅)).
Proof.
  refine (proj2 (page_wrap tight_layout ["Project"] [sample_row] sample_row
            (x_start tight_layout, y_start tight_layout)
            (x_start tight_layout,
             y_start tight_layout - row_pitch tight_layout)
            (World [] ∅)
            (World (label_events tight_layout ["Project"]
                      (x_start tight_layout) (y_start tight_layout)
                      (Some "P1") (Some "A1") (Some "L1")) ∅)
            (Some "P1") (Some "A1") (Some "L1") _ _ _ _)).
  - vm_compute. reflexivity.
  - vm_compute. repeat split.
  - vm_compute. reflexivity.
  - vm_compute. reflexivity.
Defined.

(** C4. Take the turn of a record.  If it starts with [y < margin], the
    cursor is first put at [y = y_start] and [x + qr_img_size +
    horizontal_spacing], and it is this cursor the page test sees; unless
    the page test starts a page, the label is drawn there, at the top of
    the next column.  If the turn starts with [y >= margin], the checks
    leave the cursor alone and the label is drawn at it. *)
Theorem column_wrap (lp : layout_params) (fields : list string)
    (pre : list row) (r : row) (start cur : Qc * Qc) (w0 w : world)
    (p i l : cell) :
  for_rows lp fields pre start w0 = (Returned cur, w) →
  has_fields r p i l →
  (cur.2 < margin lp →
     column_check lp cur.1 cur.2 w
     = page_check lp (cur.1 + (qr_img_size lp + horizontal_spacing lp))
         (y_start lp) w
     ∧ (¬ letter.1 - margin lp
          < cur.1 + (qr_img_size lp + horizontal_spacing lp) + qr_img_size lp →
        for_rows lp fields (pre ++ [r]) start w0
        = (Returned (cur.1 + (qr_img_size lp + horizontal_spacing lp),
                     y_start lp - row_pitch lp),
           World (trace w
                    ++ label_events lp fields
                         (cur.1 + (qr_img_size lp + horizontal_spacing lp))
                         (y_start lp) p i l)
                 (delete (label_path l) (files w)))))
  ∧ (margin lp ≤ cur.2 →
     column_check lp cur.1 cur.2 w = (Returned cur, w)
     ∧ for_rows lp fields (pre ++ [r]) start w0
       = (Returned (cur.1, cur.2 - row_pitch lp),
          World (trace w ++ label_events lp fields cur.1 cur.2 p i l)
                (delete (label_path l) (files w)))).
Proof.
  intros Hpre Hr.
  rewrite (for_rows_turn lp fields pre r start cur w0 w Hpre).
  rewrite (loop_body_run lp fields r cur w p i l Hr). split.
  - intros Hy. split.
    + unfold column_check. by rewrite (decide_True _ _ Hy).
    + intros Hx.
      by destruct (placement_column lp cur Hy) as [-> ->]; [intros [_ ?]|].
  - intros Hy. rewrite column_check_run.
    destruct (placement_stay lp cur Hy) as [-> ->].
    destruct w; cbn. by rewrite app_nil_r.
Qed.

Lemma column_wrap_witness :
  for_rows wide_layout ["Project"] ([sample_row] ++ [sample_row])
    (x_start wide_layout, y_start wide_layout) (World [] ∅)
  = (Returned (x_start wide_layout
               + (qr_img_size wide_layout + horizontal_spacing wide_layout),
               y_start wide_layout - row_pitch wide_layout),
     World
       (label_events wide_layout ["Project"] (x_start wide_layout)
          (y_start wide_layout) (Some "P1") (Some "A1") (Some "L1")
        ++ label_events wide_layout ["Project"]
             (x_start wide_layout
              + (qr_img_size wide_layout + horizontal_spacing wide_layout))
             (y_start wide_layout) (Some "P1") (Some "A1") (Some "L1"))
       (delete (label_path (Some "L1")) ∅)).
Proof.
  refine (proj2 (proj1 (column_wrap wide_layout ["Project"] [sample_row]
            sample_row
            (x_start wide_layout, y_start wide_layout)
            (x_start wide_layout, y_start wide_layout - row_pitch wide_layout)
            (World [] ∅)
            (World (label_events wide_layout ["Project"]
                      (x_start wide_layout) (y_start wide_layout)
                      (Some "P1") (Some "A1") (Some "L1")) ∅)
            (Some "P1") (Some "A1") (Some "L1") _ _) _) _).
  - vm_compute. reflexivity.
  - vm_compute. repeat split.
  - vm_compute. reflexivity.
  - vm_compute. discriminate.
Defined.

(** ** The label of a record *)

Section label.
Context (lp : layout_params).

Lemma turn_run (fields : list string) (pre : list row) (r : row)
    (start cur : Qc * Qc) (w0 w : world) (p i l : cell) :
  for_rows lp fields pre start w0 = (Returned cur, w) →
  has_fields r p i l →
  ∃ x y brk,
    column_check lp cur.1 cur.2 w
    = (Returned (x, y), World (trace w ++ brk) (files w))
    ∧ for_rows lp fields (pre ++ [r]) start w0
      = (Returned (x, y - row_pitch lp),
         World (trace w ++ brk ++ label_events lp fields x y p i l)
               (delete (label_path l) (files w))).
Proof.
  intros Hpre Hr.
  exists (placement lp cur).1, (placement lp cur).2, (page_break lp cur).
  split.
  - rewrite column_check_run. by destruct (placement lp cur).
  - rewrite (for_rows_turn lp fields pre r start cur w0 w Hpre).
    apply (loop_body_run lp fields r cur w p i l Hr).
Qed.

Lemma text_lines_ext (fields fields' : list string) (text_x y : Qc)
    (p i l : cell) :
  (∀ k, k ∈ fields' ↔ k ∈ fields) →
  text_lines lp fields' text_x y p i l = text_lines lp fields text_x y p i l.
Proof.
  intros Hsame. unfold text_lines.
  by rewrite !(bool_decide_ext _ _ (Hsame _)).
Qed.

Lemma text_lines_lid_only (fields : list string) (text_x y : Qc)
    (p i l : cell) :
  (∀ k, k ∈ fields ↔ k = "LID") →
  text_lines lp fields text_x y p i l
  = [DrawString text_x (y + lit_2_2 * line_spacing lp)
       ("LID: " +:+ py_str l)].
Proof.
  intros Hlid. unfold text_lines.
  rewrite (bool_decide_eq_false_2 ("Project" ∈ fields))
    by (by rewrite Hlid).
  rewrite (bool_decide_eq_false_2 ("ID" ∈ fields)) by (by rewrite Hlid).
  by rewrite (bool_decide_eq_true_2 ("LID" ∈ fields)) by (by rewrite Hlid).
Qed.

Lemma for_rows_cursor (fields fields' : list string) (rows : list row)
    (cur : Qc * Qc) (w w' : world) :
  Forall readable rows →
  (for_rows lp fields' rows cur w').1 = (for_rows lp fields rows cur w).1.
Proof.
  intros Hrows. revert cur w w'.
  induction Hrows as [|r rows (p & i & l & Hr) _ IH]; intros cur w w';
    [done|].
  cbn [for_rows].
  rewrite (bind_returned _ _ _ _ _ (loop_body_run lp fields r cur w p i l Hr)).
  rewrite (bind_returned _ _ _ _ _ (loop_body_run lp fields' r cur w' p i l Hr)).
  apply IH.
Qed.
End label.

(** C5. The text of a record is drawn by [draw_fields] exactly as worded:
    at [text_x = x + qr_img_size + text_margin], where [(x, y)] is the
    place of the QR image, from [y + 2.2 * line_spacing] down, Project
    before ID before LID, only the selected ones, the line going down by
    [line_spacing] after a Project line and after an ID line.  Selecting
    the same fields in another order draws the same calls, and selecting
    LID alone draws the single line [LID: <lid>] at
    [y + 2.2 * line_spacing]. *)
Theorem text_block (lp : layout_params) (fields : list string)
    (pre : list row) (r : row) (start cur : Qc * Qc) (w0 w : world)
    (p i l : cell) :
  for_rows lp fields pre start w0 = (Returned cur, w) →
  has_fields r p i l →
  ∃ x y brk cur' fs',
    column_check lp cur.1 cur.2 w
    = (Returned (x, y), World (trace w ++ brk) (files w))
    ∧ for_rows lp fields (pre ++ [r]) start w0
      = (Returned cur',
         World (trace w ++ brk
                  ++ [ImgSave (label_path l) (generate_qr_code l);
                      Canvas (DrawImage (label_path l) (generate_qr_code l)
                                x y (qr_img_size lp) (qr_img_size lp));
                      Canvas (SetFont "Helvetica-Bold" 6);
                      Canvas (SetFillColor "black")]
                  ++ (Canvas <$> text_lines lp fields
                                   (x + qr_img_size lp + text_margin lp) y
                                   p i l)
                  ++ [OsRemove (label_path l)])
               fs')
    ∧ (∀ text_x text_y w1,
         draw_fields lp fields text_x text_y p i l w1
         = (Returned tt,
            World (trace w1
                     ++ (Canvas <$> text_lines lp fields text_x text_y p i l))
                  (files w1)))
    ∧ (∀ fields' text_x text_y w1,
         fields' ≡ₚ fields →
         draw_fields lp fields' text_x text_y p i l w1
         = draw_fields lp fields text_x text_y p i l w1)
    ∧ ((∀ k, k ∈ fields ↔ k = "LID") →
       text_lines lp fields (x + qr_img_size lp + text_margin lp) y p i l
       = [DrawString (x + qr_img_size lp + text_margin lp)
            (y + lit_2_2 * line_spacing lp) ("LID: " +:+ py_str l)]).
Proof.
  intros Hpre Hr.
  destruct (turn_run lp fields pre r start cur w0 w p i l Hpre Hr)
    as (x & y & brk & Hcheck & Hturn).
  exists x, y, brk. eexists _, _. split; [exact Hcheck|]. split.
  { rewrite Hturn. reflexivity. }
  split; [intros; apply draw_fields_run|]. split.
  - intros fields' text_x text_y w1 Hperm. rewrite !draw_fields_run.
    rewrite (text_lines_ext lp fields fields'); [done|].
    intros k. by rewrite Hperm.
  - apply text_lines_lid_only.
Qed.

Lemma text_block_witness :
  ∃ x y brk cur' fs',
    column_check tight_layout (x_start tight_layout) (y_start tight_layout)
      (World [] ∅)
    = (Returned (x, y), World ([] ++ brk) ∅)
    ∧ for_rows tight_layout ["LID"] ([] ++ [sample_row])
        (x_start tight_layout, y_start tight_layout) (World [] ∅)
      = (Returned cur',
         World ([] ++ brk
                  ++ [ImgSave (label_path (Some "L1"))
                        (generate_qr_code (Some "L1"));
                      Canvas (DrawImage (label_path (Some "L1"))
                                (generate_qr_code (Some "L1")) x y
                                (qr_img_size tight_layout)
                                (qr_img_size tight_layout));
                      Canvas (SetFont "Helvetica-Bold" 6);
                      Canvas (SetFillColor "black")]
                  ++ (Canvas <$> text_lines tight_layout ["LID"]
                                   (x + qr_img_size tight_layout
                                    + text_margin tight_layout) y
                                   (Some "P1") (Some "A1") (Some "L1"))
                  ++ [OsRemove (label_path (Some "L1"))])
               fs')
    ∧ (∀ text_x text_y w1,
         draw_fields tight_layout ["LID"] text_x text_y
           (Some "P1") (Some "A1") (Some "L1") w1
         = (Returned tt,
            World (trace w1
                     ++ (Canvas <$> text_lines tight_layout ["LID"] text_x
                                      text_y (Some "P1") (Some "A1")
                                      (Some "L1")))
                  (files w1)))
    ∧ (∀ fields' text_x text_y w1,
         fields' ≡ₚ ["LID"] →
         draw_fields tight_layout fields' text_x text_y
           (Some "P1") (Some "A1") (Some "L1") w1
         = draw_fields tight_layout ["LID"] text_x text_y
             (Some "P1") (Some "A1") (Some "L1") w1)
    ∧ ((∀ k, k ∈ ["LID"] ↔ k = "LID") →
       text_lines tight_layout ["LID"]
         (x + qr_img_size tight_layout + text_margin tight_layout) y
         (Some "P1") (Some "A1") (Some "L1")
       = [DrawString
            (x + qr_img_size tight_layout + text_margin tight_layout)
            (y + lit_2_2 * line_spacing tight_layout)
            ("LID: " +:+ py_str (Some "L1"))]).
Proof.
  apply (text_block tight_layout ["LID"] [] sample_row
           (x_start tight_layout, y_start tight_layout)
           (x_start tight_layout, y_start tight_layout)
           (World [] ∅) (World [] ∅) (Some "P1") (Some "A1") (Some "L1")).
  - reflexivity.
  - vm_compute. repeat split.
Defined.

(** C6. After the label of a record is drawn with its QR image at
    [(x, y)], the cursor the next turn starts with is
    [(x, y - (qr_img_size + vertical_spacing + 3 * line_spacing))].  The
    step does not look at the selection: with any other selection the same
    record leaves the same cursor, and a whole run of the loop ends with
    the same cursor. *)
Theorem constant_pitch (lp : layout_params) (fields : list string)
    (pre : list row) (r : row) (start cur : Qc * Qc) (w0 w : world)
    (p i l : cell) :
  for_rows lp fields pre start w0 = (Returned cur, w) →
  has_fields r p i l →
  ∃ x y brk,
    column_check lp cur.1 cur.2 w
    = (Returned (x, y), World (trace w ++ brk) (files w))
    ∧ for_rows lp fields (pre ++ [r]) start w0
      = (Returned (x, y - (qr_img_size lp + vertical_spacing lp
                           + Qc_of_Z 3 * line_spacing lp)),
         World (trace w ++ brk ++ label_events lp fields x y p i l)
               (delete (label_path l) (files w)))
    ∧ (∀ fields' w',
         (for_rows lp fields' [r] cur w').1
         = Returned (x, y - (qr_img_size lp + vertical_spacing lp
                             + Qc_of_Z 3 * line_spacing lp)))
    ∧ (∀ fields' rows w',
         Forall readable rows →
         (for_rows lp fields' rows start w').1
         = (for_rows lp fields rows start w0).1).
Proof.
  intros Hpre Hr.
  destruct (turn_run lp fields pre r start cur w0 w p i l Hpre Hr)
    as (x & y & brk & Hcheck & Hturn).
  exists x, y, brk. split; [exact Hcheck|]. split; [exact Hturn|]. split.
  - intros fields' w'.
    rewrite (for_rows_cursor lp fields fields' [r] cur w w')
      by (constructor; [by exists p, i, l|constructor]).
    change [r] with ([] ++ [r]).
    rewrite (for_rows_turn lp fields [] r cur cur w w eq_refl).
    rewrite <- (for_rows_turn lp fields pre r start cur w0 w Hpre).
    by rewrite Hturn.
  - intros fields' rows w' Hrows. by apply for_rows_cursor.
Qed.

Lemma constant_pitch_witness :
  ∃ x y brk,
    column_check wide_layout (x_start wide_layout) (y_start wide_layout)
      (World [] ∅)
    = (Returned (x, y), World ([] ++ brk) ∅)
    ∧ for_rows wide_layout ["ID"] ([] ++ [sample_row])
        (x_start wide_layout, y_start wide_layout) (World [] ∅)
      = (Returned (x, y - (qr_img_size wide_layout
                           + vertical_spacing wide_layout
                           + Qc_of_Z 3 * line_spacing wide_layout)),
         World ([] ++ brk
                  ++ label_events wide_layout ["ID"] x y
                       (Some "P1") (Some "A1") (Some "L1"))
               (delete (label_path (Some "L1")) ∅))
    ∧ (∀ fields' w',
         (for_rows wide_layout fields' [sample_row]
            (x_start wide_layout, y_start wide_layout) w').1
         = Returned (x, y - (qr_img_size wide_layout
                             + vertical_spacing wide_layout
                             + Qc_of_Z 3 * line_spacing wide_layout)))
    ∧ (∀ fields' rows w',
         Forall readable rows →
         (for_rows wide_layout fields' rows
            (x_start wide_layout, y_start wide_layout) w').1
         = (for_rows wide_layout ["ID"] rows
              (x_start wide_layout, y_start wide_layout) (World [] ∅)).1).
Proof.
  apply (constant_pitch wide_layout ["ID"] [] sample_row
           (x_start wide_layout, y_start wide_layout)
           (x_start wide_layout, y_start wide_layout)
           (World [] ∅) (World [] ∅) (Some "P1") (Some "A1") (Some "L1")).
  - reflexivity.
  - vm_compute. repeat split.
Defined.



(** ** The image files *)

Lemma turn_block_released (lp : layout_params) (fields : list string)
    (r : row) (blk : list event) :
  turn_block lp fields r blk →
  ∃ brk img x y calls,
    blk = brk
          ++ ImgSave (path_of r) img
          :: Canvas (DrawImage (path_of r) img x y
                       (qr_img_size lp) (qr_img_size lp))
          :: (Canvas <$> calls) ++ [OsRemove (path_of r)].
Proof.
  intros (p & i & l & x & y & brk & Hr & _ & ->).
  rewrite (path_of_fields r p i l Hr).
  by eexists brk, _, x, y, _.
Qed.

(** C8. In a call that returns, the trace is one block per record followed
    by the final save, and the block of a record reads: the image file is
    written, the image is drawn from it, the rest of the label is drawn,
    the file is removed.  The file of a record is therefore gone before the
    block of the next record starts: at every turn boundary, and when the
    call returns, the working directory holds the file of none of the
    records processed so far. *)
Theorem artifacts_released (lp : layout_params) (fields : list string)
    (input : csv_lines) (names : list string) (fs : gmap string qr_image) :
  fieldnames input = Some names → covers names →
  ∃ blocks doc w',
    generate_child_health_report lp fields input fs = (Returned doc, w')
    ∧ trace w' = concat blocks ++ [Canvas Save]
    ∧ Forall2
        (λ (r : row) blk,
           ∃ brk img x y calls,
             blk = brk
                   ++ ImgSave (path_of r) img
                   :: Canvas (DrawImage (path_of r) img x y
                                (qr_img_size lp) (qr_img_size lp))
                   :: (Canvas <$> calls) ++ [OsRemove (path_of r)])
        (reader_rows input) blocks
    ∧ (∀ r, r ∈ reader_rows input → files w' !! path_of r = None)
    ∧ (∀ pre post,
         reader_rows input = pre ++ post →
         ∃ cur w,
           for_rows lp fields pre (x_start lp, y_start lp) (World [] fs)
           = (Returned cur, w)
           ∧ ∀ r, r ∈ pre → files w !! path_of r = None).
Proof.
  intros Hn Hc.
  destruct (report_run lp fields input names (World [] fs) Hn Hc)
    as (blocks & Hrun & Hblocks).
  exists blocks. eexists _, _. split; [exact Hrun|]. split; [done|]. split.
  { eapply Forall2_impl; [exact Hblocks|]. apply turn_block_released. }
  split.
  - intros r Hin. cbn [files]. rewrite swept_lookup.
    rewrite decide_True; [done|]. by apply list_elem_of_fmap_2.
  - intros pre post Hrows.
    pose proof (reader_rows_readable input names Hn Hc) as Hread.
    rewrite Hrows in Hread. apply Forall_app in Hread as [Hpre _].
    destruct (for_rows_run lp fields pre (x_start lp, y_start lp)
                (World [] fs) Hpre) as (blocks' & cur & Hpre_run & _).
    eexists cur, _. split; [exact Hpre_run|].
    intros r Hin. cbn [files]. rewrite swept_lookup.
    rewrite decide_True; [done|]. by apply list_elem_of_fmap_2.
Qed.

Lemma artifacts_released_witness :
  ∃ blocks doc w',
    generate_child_health_report tight_layout ["Project"; "LID"]
      sample_table ∅
    = (Returned doc, w')
    ∧ trace w' = concat blocks ++ [Canvas Save]
    ∧ Forall2
        (λ (r : row) blk,
           ∃ brk img x y calls,
             blk = brk
                   ++ ImgSave (path_of r) img
                   :: Canvas (DrawImage (path_of r) img x y
                                (qr_img_size tight_layout)
                                (qr_img_size tight_layout))
                   :: (Canvas <$> calls) ++ [OsRemove (path_of r)])
        (reader_rows sample_table) blocks
    ∧ (∀ r, r ∈ reader_rows sample_table → files w' !! path_of r = None)
    ∧ (∀ pre post,
         reader_rows sample_table = pre ++ post →
         ∃ cur w,
           for_rows tight_layout ["Project"; "LID"] pre
             (x_start tight_layout, y_start tight_layout) (World [] ∅)
           = (Returned cur, w)
           ∧ ∀ r, r ∈ pre → files w !! path_of r = None).
Proof.
  apply (artifacts_released _ _ _ ["project"; "ID"; "lid"]).
  - reflexivity.
  - rewrite <- covers_spec. vm_compute. reflexivity.
Defined.

(** * Further properties of the engine *)

(** ** The loop in closed form *)

Lemma has_fields_cell_of (r : row) (p i l : cell) :
  has_fields r p i l →
  cell_of r "project" = p ∧ cell_of r "ID" = i ∧ cell_of r "lid" = l.
Proof. intros (Hp & Hi & Hl). unfold cell_of. by rewrite Hp, Hi, Hl. Qed.

Lemma for_rows_closed (lp : layout_params) (fields : list string)
    (rows : list row) (cur : Qc * Qc) (w : world) :
  Forall readable rows →
  for_rows lp fields rows cur w
  = (Returned (end_cursor lp rows cur),
     World (trace w ++ sheet_events lp fields rows cur)
           (swept (files w) rows)).
Proof.
  intros Hrows. revert cur w.
  induction Hrows as [|r rows (p & i & l & Hr) _ IH]; intros cur w.
  - destruct w. cbn. by rewrite app_nil_r.
  - cbn [for_rows sheet_events end_cursor].
    rewrite (bind_returned _ _ _ _ _ (loop_body_run lp fields r cur w p i l Hr)).
    rewrite IH. cbn [trace files swept foldl].
    destruct (has_fields_cell_of r p i l Hr) as (-> & -> & ->).
    by rewrite (path_of_fields r p i l Hr), <- !app_assoc.
Qed.

Lemma report_closed (lp : layout_params) (fields : list string)
    (input : csv_lines) (names : list string) (w : world) :
  fieldnames input = Some names → covers names →
  report lp fields input w
  = (Returned (canvas w
                 ++ omap canvas_call
                      (sheet_events lp fields (reader_rows input)
                         (x_start lp, y_start lp))
                 ++ [Save]),
     World (trace w
              ++ sheet_events lp fields (reader_rows input)
                   (x_start lp, y_start lp)
              ++ [Canvas Save])
           (swept (files w) (reader_rows input))).
Proof.
  intros Hn Hc. unfold report. rewrite Hn. unfold issubset. run.
  rewrite (proj2 (covers_spec names) Hc). cbn [negb].
  rewrite (for_rows_closed lp fields _ _ _
             (reader_rows_readable input names Hn Hc)).
  unfold canvas. run. by rewrite <- !app_assoc, !omap_app.
Qed.



(** ** The working directory *)




(** X3. A table that has the required columns and no record (only blank
    lines after the header row) gives a document that holds the final save
    and nothing else; no file is written or removed. *)
Theorem no_record_no_label (lp : layout_params) (fields : list string)
    (names : list string) (lines : list (list string))
    (fs : gmap string qr_image) :
  covers names → Forall (λ l, l = []) lines →
  generate_child_health_report lp fields (names :: lines) fs
  = (Returned [Save], World [Canvas Save] fs).
Proof.
  intros Hc Hblank. unfold generate_child_health_report.
  rewrite (report_closed lp fields (names :: lines) names _ eq_refl Hc).
  assert (reader_rows (names :: lines) = []) as ->; [|done].
  cbn. induction Hblank as [|l lines -> _ IH]; [done|].
  by rewrite filter_cons_False by (by intros ?).
Qed.

Lemma no_record_no_label_witness :
  generate_child_health_report wide_layout ["Project"]
    (["lid"; "note"; "ID"; "project"] :: [[]; []]) ∅
  = (Returned [Save], World [Canvas Save] ∅).
Proof.
  apply no_record_no_label.
  - rewrite <- covers_spec. vm_compute. reflexivity.
  - repeat constructor.
Defined.

(** ** What a call reads *)

Lemma loop_body_same_cells (lp : layout_params) (fields : list string)
    (r r' : row) (cur : Qc * Qc) (w : world) :
  same_cells r r' →
  loop_body lp fields r cur w = loop_body lp fields r' cur w.
Proof.
  intros (Hp & Hi & Hl). unfold loop_body, getitem. by rewrite Hp, Hi, Hl.
Qed.

Lemma for_rows_same_cells (lp : layout_params) (fields : list string)
    (rows rows' : list row) (cur : Qc * Qc) (w : world) :
  Forall2 same_cells rows rows' →
  for_rows lp fields rows cur w = for_rows lp fields rows' cur w.
Proof.
  intros Hrows. revert cur w.
  induction Hrows as [|r r' rows rows' Hr _ IH]; intros cur w; [done|].
  cbn [for_rows]. unfold mbind, M_bind.
  rewrite (loop_body_same_cells lp fields r r' cur w Hr).
  destruct (loop_body lp fields r' cur w) as [[cur'|e] w']; [apply IH|done].
Qed.

(** X4. Of a table the call reads the header row and, in each record, the
    cells under [project], [ID] and [lid]: two tables that both have the
    required columns and whose records agree on these three cells, one by
    one, give the same outcome, the same trace and the same directory,
    whatever other columns they have and in whatever order. *)
Theorem only_three_cells_read (lp : layout_params) (fields : list string)
    (input input' : csv_lines) (names names' : list string)
    (fs : gmap string qr_image) :
  fieldnames input = Some names → covers names →
  fieldnames input' = Some names' → covers names' →
  Forall2 same_cells (reader_rows input) (reader_rows input') →
  generate_child_health_report lp fields input fs
  = generate_child_health_report lp fields input' fs.
Proof.
  intros Hn Hc Hn' Hc' Hrows. unfold generate_child_health_report, report.
  rewrite Hn, Hn'. unfold issubset. run.
  rewrite (proj2 (covers_spec names) Hc), (proj2 (covers_spec names') Hc').
  cbn [negb].
  by rewrite (for_rows_same_cells lp fields _ _ _ _ Hrows).
Qed.

Lemma only_three_cells_read_witness :
  generate_child_health_report tight_layout ["Project"; "LID"]
    [["project"; "ID"; "lid"]; ["P1"; "A1"; "L1"]; ["P2"; "A2"; "L2"]] ∅
  = generate_child_health_report tight_layout ["Project"; "LID"]
      [["lid"; "site"; "project"; "ID"]; []; ["L1"; "north"; "P1"; "A1"];
       ["L2"; "south"; "P2"; "A2"; "more"]] ∅.
Proof.
  apply (only_three_cells_read _ _ _ _ ["project"; "ID"; "lid"]
           ["lid"; "site"; "project"; "ID"]).
  - reflexivity.
  - rewrite <- covers_spec. vm_compute. reflexivity.
  - reflexivity.
  - rewrite <- covers_spec. vm_compute. reflexivity.
  - repeat (constructor; [repeat split; vm_compute; reflexivity|]).
    constructor.
Defined.

Lemma loop_body_selects (lp : layout_params) (fields fields' : list string)
    (r : row) (cur : Qc * Qc) (w : world) :
  selects fields = selects fields' →
  loop_body lp fields r cur w = loop_body lp fields' r cur w.
Proof.
  intros [= HP HI HL]. unfold loop_body, draw_fields. by rewrite HP, HI, HL.
Qed.

Lemma for_rows_selects (lp : layout_params) (fields fields' : list string)
    (rows : list row) (cur : Qc * Qc) (w : world) :
  selects fields = selects fields' →
  for_rows lp fields rows cur w = for_rows lp fields' rows cur w.
Proof.
  intros Hsel. revert cur w.
  induction rows as [|r rows IH]; intros cur w; [done|].
  cbn [for_rows]. unfold mbind, M_bind.
  rewrite (loop_body_selects lp fields fields' r cur w Hsel).
  destruct (loop_body lp fields' r cur w) as [[cur'|e] w']; [apply IH|done].
Qed.

(** X5. Of the selection the call uses only whether it holds the strings
    [Project], [ID] and [LID], spelled exactly so: two selections that
    agree on these three memberships give the same outcome, trace and
    directory.  Repeated names, other names and other spellings (such as
    [lid]) change nothing. *)
Theorem selection_is_three_flags (lp : layout_params)
    (fields fields' : list string) (input : csv_lines)
    (fs : gmap string qr_image) :
  selects fields = selects fields' →
  generate_child_health_report lp fields input fs
  = generate_child_health_report lp fields' input fs.
Proof.
  intros Hsel. unfold generate_child_health_report, report.
  destruct (fieldnames input) as [names|]; [|done].
  unfold issubset. run.
  destruct (forallb _ required_headers); cbn [negb]; [|done].
  by rewrite (for_rows_selects lp fields fields' _ _ _ Hsel).
Qed.

Lemma selection_is_three_flags_witness :
  generate_child_health_report tight_layout
    ["lid"; "LID"; "Site"; "LID"; "project"] sample_table ∅
  = generate_child_health_report tight_layout ["LID"] sample_table ∅.
Proof.
  apply selection_is_three_flags. vm_compute. reflexivity.
Defined.

(** ** Short rows *)

Lemma foldl_restval (names : list string) (d : row) (k : string) :
  k ∈ names ∨ d !! k = Some None →
  foldl (λ (d : row) k, <[k := None]> d) d names !! k = Some None.
Proof.
  revert d. induction names as [|n names IH]; intros d [Hk|Hk]; cbn [foldl].
  - by apply elem_of_nil in Hk.
  - done.
  - apply IH. apply elem_of_cons in Hk as [->|Hk]; [right|by left].
    apply lookup_insert_eq.
  - apply IH. right. destruct (decide (n = k)) as [->|Hne].
    + apply lookup_insert_eq.
    + by rewrite lookup_insert_ne.
Qed.

(** X6. A record that is too short to reach the [lid] column is not
    rejected: its [lid] cell reads [None], so in its turn the QR image is
    made from [None], it is written to and removed from the file
    [None_qrcode.png], and the label is drawn with [None] in place of the
    missing cell. *)
Theorem short_row_reads_None (lp : layout_params) (fields : list string)
    (pre : list row) (names cells : list string) (start cur : Qc * Qc)
    (w0 w : world) :
  for_rows lp fields pre start w0 = (Returned cur, w) →
  covers names → "lid" ∈ drop (length cells) names →
  dict_row names cells !! "lid" = Some None
  ∧ ∃ p i x y brk cur',
      for_rows lp fields (pre ++ [dict_row names cells]) start w0
      = (Returned cur',
         World (trace w ++ brk
                  ++ ImgSave "None_qrcode.png" (generate_qr_code None)
                  :: (Canvas <$> label_calls lp fields x y p i None)
                  ++ [OsRemove "None_qrcode.png"])
               (delete "None_qrcode.png" (files w))).
Proof.
  intros Hpre Hc Hshort.
  assert (dict_row names cells !! "lid" = Some None) as Hl.
  { unfold dict_row. apply foldl_restval. by left. }
  split; [done|].
  destruct (covers_readable names cells Hc) as (p & i & l & Hp & Hi & Hl').
  rewrite Hl in Hl'. injection Hl' as <-.
  destruct (turn_run lp fields pre (dict_row names cells) start cur w0 w
              p i None Hpre (conj Hp (conj Hi Hl)))
    as (x & y & brk & _ & Hturn).
  exists p, i, x, y, brk. eexists. exact Hturn.
Qed.

Lemma short_row_reads_None_witness :
  dict_row ["project"; "ID"; "lid"] ["P2"; "A2"] !! "lid" = Some None
  ∧ ∃ p i x y brk cur',
      for_rows wide_layout ["LID"]
        ([] ++ [dict_row ["project"; "ID"; "lid"] ["P2"; "A2"]])
        (x_start wide_layout, y_start wide_layout) (World [] ∅)
      = (Returned cur',
         World ([] ++ brk
                  ++ ImgSave "None_qrcode.png" (generate_qr_code None)
                  :: (Canvas <$> label_calls wide_layout ["LID"] x y p i None)
                  ++ [OsRemove "None_qrcode.png"])
               (delete "None_qrcode.png" ∅)).
Proof.
  apply (short_row_reads_None wide_layout ["LID"] []
           ["project"; "ID"; "lid"] ["P2"; "A2"]
           (x_start wide_layout, y_start wide_layout)
           (x_start wide_layout, y_start wide_layout)
           (World [] ∅) (World [] ∅)).
  - reflexivity.
  - rewrite <- covers_spec. vm_compute. reflexivity.
  - cbn. left.
Defined.

(** ** Where the images go *)

Lemma Qc_this_plus (x y : Qc) : (this (x + y) == this x + this y)%Q.
Proof. apply Qred_correct. Qed.

Lemma Qc_this_minus (x y : Qc) : (this (x - y) == this x - this y)%Q.
Proof.
  unfold Qcminus. rewrite Qc_this_plus. cbn. by rewrite Qred_correct.
Qed.

(** Linear arithmetic over [Qc], by way of [Q]. *)
Ltac qc_lra :=
  unfold Qcle, Qclt in *;
  repeat first [ rewrite Qc_this_minus | rewrite Qc_this_plus ];
  repeat match goal with
  | H : context [this (_ - _)] |- _ => rewrite Qc_this_minus in H
  | H : context [this (_ + _)] |- _ => rewrite Qc_this_plus in H
  end;
  cbn [this Q2Qc] in *;
  repeat match goal with
  | H : context [Qred _] |- _ => rewrite Qred_correct in H
  end;
  rewrite ?Qred_correct;
  lra.

Lemma canvas_of_label (lp : layout_params) (fields : list string)
    (x y : Qc) (p i l : cell) :
  omap canvas_call (label_events lp fields x y p i l)
  = label_calls lp fields x y p i l.
Proof.
  unfold label_events. csimpl.
  by rewrite omap_app, canvas_of_calls, app_nil_r.
Qed.



Section geometry.
Context (lp : layout_params).
Hypothesis room_down : margin lp ≤ letter.2 - margin lp - qr_img_size lp.
Hypothesis room_across : margin lp + qr_img_size lp ≤ letter.1 - margin lp.
Hypothesis pitch_down :
  0 ≤ qr_img_size lp + vertical_spacing lp + Qc_of_Z 3 * line_spacing lp.
Hypothesis pitch_across : 0 ≤ qr_img_size lp + horizontal_spacing lp.


End geometry.



(** ** Sheets in closed form *)





Lemma sheet_oversized (lp : layout_params) (fields : list string)
    (rows : list row) (y : Qc) :
  y_start lp < margin lp → 0 ≤ row_pitch lp →
  letter.1 - margin lp
    < x_start lp + (qr_img_size lp + horizontal_spacing lp) + qr_img_size lp →
  y < margin lp →
  omap canvas_call (sheet_events lp fields rows (x_start lp, y))
  = concat ((λ r : row,
               ShowPage
               :: label_calls lp fields (x_start lp) (y_start lp)
                    (cell_of r "project") (cell_of r "ID") (cell_of r "lid"))
            <$> rows).
Proof.
  intros Hstart Hpitch Hover. revert y.
  induction rows as [|r rows IH]; intros y Hy; [done|].
  cbn [sheet_events].
  destruct (placement_full lp (x_start lp, y) (conj Hy Hover)) as [-> ->].
  cbn [fst snd]. rewrite fmap_cons. cbn [concat].
  rewrite !omap_app, canvas_of_label, IH; [done|].
  clear IH Hover. qc_lra.
Qed.

(** X9. When the margins leave no room for a label below the top one
    ([y_start < margin]) nor for a second column, and the step down is not
    negative, every record starts a page: the document is, for each record
    in turn, a page break followed by its label at [(x_start, y_start)].
    The first page, before the first break, stays empty. *)
Theorem oversized_margins_sheet (lp : layout_params) (fields : list string)
    (input : csv_lines) (names : list string) (fs : gmap string qr_image) :
  fieldnames input = Some names → covers names →
  letter.2 - margin lp - qr_img_size lp < margin lp →
  0 ≤ qr_img_size lp + vertical_spacing lp + Qc_of_Z 3 * line_spacing lp →
  letter.1 - margin lp
    < margin lp + (qr_img_size lp + horizontal_spacing lp) + qr_img_size lp →
  (generate_child_health_report lp fields input fs).1
  = Returned
      (concat ((λ r : row,
                  ShowPage
                  :: label_calls lp fields (x_start lp) (y_start lp)
                       (cell_of r "project") (cell_of r "ID")
                       (cell_of r "lid"))
               <$> reader_rows input)
       ++ [Save]).
Proof.
  intros Hn Hc Hstart Hpitch Hover. unfold generate_child_health_report.
  rewrite (report_closed lp fields input names _ Hn Hc).
  cbn [fst canvas trace omap list_omap app].
  by rewrite (sheet_oversized lp fields _ _ Hstart Hpitch Hover Hstart).
Qed.

Lemma oversized_margins_sheet_witness :
  (generate_child_health_report
     (set_layout_parameters (Qc_of_Z 400) (Qc_of_Z 2) (Qc_of_Z 100)
        (Qc_of_Z 8) (Qc_of_Z 10) (Qc_of_Z 10))
     ["ID"] sample_table ∅).1
  = Returned
      (concat ((λ r : row,
                  ShowPage
                  :: label_calls
                       (set_layout_parameters (Qc_of_Z 400) (Qc_of_Z 2)
                          (Qc_of_Z 100) (Qc_of_Z 8) (Qc_of_Z 10) (Qc_of_Z 10))
                       ["ID"]
                       (x_start
                          (set_layout_parameters (Qc_of_Z 400) (Qc_of_Z 2)
                             (Qc_of_Z 100) (Qc_of_Z 8) (Qc_of_Z 10)
                             (Qc_of_Z 10)))
                       (y_start
                          (set_layout_parameters (Qc_of_Z 400) (Qc_of_Z 2)
                             (Qc_of_Z 100) (Qc_of_Z 8) (Qc_of_Z 10)
                             (Qc_of_Z 10)))
                       (cell_of r "project") (cell_of r "ID")
                       (cell_of r "lid"))
               <$> reader_rows sample_table)
       ++ [Save]).
Proof.
  apply (oversized_margins_sheet _ _ _ ["project"; "ID"; "lid"]).
  - reflexivity.
  - rewrite <- covers_spec. vm_compute. reflexivity.
  - by vm_compute.
  - by vm_compute.
  - by vm_compute.
Defined.

(** ** The layout dictionary *)

Lemma read_layout_set (m t q l h v : Qc) (w : world) :
  read_layout (set_layout_parameters_dict m t q l h v) w
  = (Returned (set_layout_parameters m t q l h v), w).
Proof.
  unfold read_layout, layout_getitem, set_layout_parameters_dict.
  by simplify_map_eq.
Qed.

Lemma report_dict_set (m t q l h v : Qc) (fields : list string)
    (input : csv_lines) (w : world) :
  report_dict (set_layout_parameters_dict m t q l h v) fields input w
  = report (set_layout_parameters m t q l h v) fields input w.
Proof.
  unfold report_dict, report.
  destruct (fieldnames input) as [names|]; [|done].
  unfold issubset. run.
  destruct (forallb _ required_headers); cbn [negb]; [|done].
  by rewrite read_layout_set.
Qed.

(** X10. The dictionary [set_layout_parameters] builds holds each of the
    six keys the report reads, under the value passed for it: on such a
    dictionary the six reads raise nothing and the call runs with exactly
    the six values the dictionary was built from. *)
Theorem layout_round_trip (m t q l h v : Qc) (fields : list string)
    (input : csv_lines) (w : world) :
  read_layout (set_layout_parameters_dict m t q l h v) w
  = (Returned (LayoutParams m t q l h v), w)
  ∧ report_dict (set_layout_parameters_dict m t q l h v) fields input w
    = report (set_layout_parameters m t q l h v) fields input w.
Proof. split; [apply read_layout_set|apply report_dict_set]. Qed.

(** X11. With a dictionary that lacks one of the six keys, a table that
    passes the header check makes the call raise [KeyError] for the first
    key, in reading order, that is missing, before anything is drawn or
    written; a table that fails the header check still gets the error of
    line 48, because the header check comes first. *)
Theorem missing_layout_key (d : gmap string Qc) (fields : list string)
    (input : csv_lines) (names : list string) (w : world)
    (before after : list string) (key : string) :
  fieldnames input = Some names →
  layout_keys = before ++ key :: after →
  (∀ k, k ∈ before → is_Some (d !! k)) →
  d !! key = None →
  (covers names →
   report_dict d fields input w = (Raised (KeyError key), w))
  ∧ (¬ covers names →
     report_dict d fields input w
     = (Raised (ValueError "CSV file is missing required headers"), w)).
Proof.
  intros Hn Hkeys Hbefore Hkey. unfold report_dict. rewrite Hn.
  unfold issubset. run. split.
  - intros Hc. rewrite (proj2 (covers_spec names) Hc). cbn [negb].
    unfold read_layout, layout_getitem, layout_keys in *. run.
    destruct before as [|b0 [|b1 [|b2 [|b3 [|b4 [|b5 before]]]]]];
      cbn in Hkeys; simplify_eq;
      repeat match goal with
      | |- context [d !! ?k] =>
          lazymatch goal with
          | H : d !! k = None |- _ => rewrite H
          | _ =>
              let v := fresh "v" in
              let Hv := fresh "Hv" in
              destruct (Hbefore k) as [v Hv]; [by repeat constructor|];
              rewrite Hv
          end
      end; try done.
    by destruct before.
  - intros Hc. rewrite <- covers_spec in Hc. apply not_true_is_false in Hc.
    by rewrite Hc.
Qed.

Lemma missing_layout_key_witness :
  (covers ["project"; "ID"; "lid"] →
   report_dict
     (delete "qr_img_size"
        (set_layout_parameters_dict (Qc_of_Z 100) (Qc_of_Z 2) (Qc_of_Z 100)
           (Qc_of_Z 8) (Qc_of_Z 50) (Qc_of_Z 400)))
     ["LID"] sample_table (World [] ∅)
   = (Raised (KeyError "qr_img_size"), World [] ∅))
  ∧ (¬ covers ["project"; "ID"; "lid"] →
     report_dict
       (delete "qr_img_size"
          (set_layout_parameters_dict (Qc_of_Z 100) (Qc_of_Z 2) (Qc_of_Z 100)
             (Qc_of_Z 8) (Qc_of_Z 50) (Qc_of_Z 400)))
       ["LID"] sample_table (World [] ∅)
     = (Raised (ValueError "CSV file is missing required headers"),
        World [] ∅)).
Proof.
  apply (missing_layout_key _ _ _ ["project"; "ID"; "lid"] _
           ["margin"; "text_margin"] 
           ["line_spacing"; "horizontal_spacing"; "vertical_spacing"]).
  - reflexivity.
  - reflexivity.
  - intros k Hk.
    apply elem_of_cons in Hk as [->|Hk]; [by eexists|].
    apply elem_of_cons in Hk as [->|Hk]; [by eexists|].
    by apply elem_of_nil in Hk.
  - by vm_compute.
Defined.

(** ** The page of the application *)



(** X13. When a file is uploaded that has no header row, or whose header
    row lacks a required column, the exception does not leave the script:
    the page shows one error, [An error occurred: ] followed by the text of
    the exception, and no download; nothing was drawn and the working
    directory is untouched.  For a header row that lacks a column the text
    is the message of line 48. *)
Theorem page_shows_error (ws : widgets) (input : csv_lines)
    (fs : gmap string qr_image) :
  uploaded_file ws = Some input →
  (∀ names, fieldnames input = Some names → ¬ covers names) →
  ∃ e,
    streamlit_app ws fs
    = ([StTitle "Generate QR Code"; StSidebarHeader "Layout Parameters";
        StError ("An error occurred: " +:+ exn_str e)],
       World [] fs)
    ∧ (fieldnames input = None → e = TypeError)
    ∧ (∀ names, fieldnames input = Some names →
         exn_str e = "CSV file is missing required headers").
Proof.
  intros Hup Hbad. unfold streamlit_app. rewrite Hup.
  rewrite report_dict_set.
  destruct (fieldnames input) as [names|] eqn:Hn.
  - rewrite (report_missing _ _ input names _ Hn (Hbad names eq_refl)).
    eexists. split; [reflexivity|]. by split.
  - unfold report. rewrite Hn. exists TypeError. by repeat split.
Qed.

Lemma page_shows_error_witness :
  ∃ e,
    streamlit_app
      (Widgets ["LID"] (Q2Qc (28 # 10)) (Q2Qc (5 # 100)) (Q2Qc (8 # 10))
         (Qc_of_Z 8) (Q2Qc (28 # 10)) (Qc_of_Z 1) (Some lowercase_table)) ∅
    = ([StTitle "Generate QR Code"; StSidebarHeader "Layout Parameters";
        StError ("An error occurred: " +:+ exn_str e)],
       World [] ∅)
    ∧ (fieldnames lowercase_table = None → e = TypeError)
    ∧ (∀ names, fieldnames lowercase_table = Some names →
         exn_str e = "CSV file is missing required headers").
Proof.
  apply (page_shows_error
           (Widgets ["LID"] (Q2Qc (28 # 10)) (Q2Qc (5 # 100)) (Q2Qc (8 # 10))
              (Qc_of_Z 8) (Q2Qc (28 # 10)) (Qc_of_Z 1) (Some lowercase_table))
           lowercase_table).
  - reflexivity.
  - intros names [= <-]. rewrite <- covers_spec. vm_compute. discriminate.
Defined.

(** ** Cells under their column names *)

Lemma foldl_zip_lookup (l : list (string * string)) (d : row)
    (n c : string) :
  NoDup (l.*1) →
  (n, c) ∈ l ∨ (¬ n ∈ l.*1) ∧ d !! n = Some (Some c) →
  foldl (λ (d : row) nv, <[nv.1 := Some nv.2]> d) d l !! n = Some (Some c).
Proof.
  revert d. induction l as [|[n' c'] l IH]; intros d Hnd Hn; cbn [foldl].
  - destruct Hn as [Hn|[_ Hn]]; [by apply elem_of_nil in Hn|done].
  - rewrite fmap_cons in Hnd. apply NoDup_cons in Hnd as [Hfresh Hnd].
    apply IH; [done|]. cbn [fst snd].
    destruct Hn as [Hn|[Hn Hd]].
    + apply elem_of_cons in Hn as [[= -> ->]|Hn]; [right|by left].
      split; [done|]. apply lookup_insert_eq.
    + right. rewrite fmap_cons in Hn. apply not_elem_of_cons in Hn as [Hne Hn].
      split; [done|]. by rewrite lookup_insert_ne.
Qed.

Lemma foldl_restval_other (names : list string) (d : row) (k : string) :
  k ∉ names →
  foldl (λ (d : row) k, <[k := None]> d) d names !! k = d !! k.
Proof.
  revert d. induction names as [|n names IH]; intros d Hk; [done|].
  apply not_elem_of_cons in Hk as [Hne Hk]. cbn [foldl].
  rewrite IH by done. by rewrite lookup_insert_ne.
Qed.

Lemma fst_zip_take (names cells : list string) :
  (zip names cells).*1 = take (length cells) names.
Proof.
  revert cells. induction names as [|n names IH]; intros [|c cells];
    cbn; [done..|].
  by rewrite IH.
Qed.

(** X14. Under a header row without repeated names, a record reads back
    each of its cells under the name of the cell's column: the cell at
    position [i] of the record is the value of the row under the name at
    position [i] of the header, whether the record is shorter or longer
    than the header. *)
Theorem cell_under_column_name (names cells : list string) (i : nat)
    (n c : string) :
  NoDup names → names !! i = Some n → cells !! i = Some c →
  dict_row names cells !! n = Some (Some c).
Proof.
  intros Hnd Hn Hcell. unfold dict_row.
  assert (i < length cells)%nat as Hi by (by eapply lookup_lt_Some).
  rewrite foldl_restval_other.
  - apply foldl_zip_lookup.
    + rewrite fst_zip_take.
      exact (sublist_NoDup _ _ Hnd (sublist_take _ _)).
    + left. apply list_elem_of_lookup. exists i.
      by apply lookup_zip_with_Some; exists n, c.
  - intros Hin. apply list_elem_of_lookup in Hin as [j Hj].
    rewrite lookup_drop in Hj.
    pose proof (NoDup_lookup _ _ _ _ Hnd Hn Hj). lia.
Qed.

Lemma cell_under_column_name_witness :
  dict_row ["lid"; "site"; "project"; "ID"] ["L2"; "south"; "P2"] !! "project"
  = Some (Some "P2").
Proof.
  apply (cell_under_column_name _ _ 2).
  - repeat (apply NoDup_cons; split;
            [intros Hin; repeat (apply elem_of_cons in Hin as [[=]|Hin]);
             by apply elem_of_nil in Hin|]).
    apply NoDup_nil_2.
  - reflexivity.
  - reflexivity.
Defined.
